(** * Mergington High School activities API (src/app.py)

    A shallow embedding of the SQLModel tables, the seeding routine and the
    three request handlers of [app.py], followed by the properties of the
    signup / unregister logic.

    The SQLite database is the state: every handler opens a session on the
    current tables and returns a response together with the tables it
    leaves behind.  A handler that raises leaves the tables as they were
    (the session is closed without a commit). *)

From Stdlib Require Import List ZArith String Bool Lia.
Import ListNotations.

Local Open Scope Z_scope.
Local Open Scope list_scope.

(** ** Tables *)

(** [class Activity(SQLModel, table=True)] *)
Module Activity.
Record t : Type := mk
  { id : Z;
    name : string;
    description : option string;
    schedule : option string;
    max_participants : Z }.
End Activity.

(** [class Participant(SQLModel, table=True)] *)
Module Participant.
Record t : Type := mk
  { id : Z;
    email : string;
    activity_id : Z }.
End Participant.

(** The database: both tables, rows in storage (rowid) order. *)
Record Store : Type := mkStore
  { activity : list Activity.t;
    participant : list Participant.t }.

(** ** The part of the session API that the handlers use *)

(** [session.exec(select(T).where(cond))]: the rows that satisfy [cond],
    in storage order. *)
Definition select_where {A : Type} (cond : A -> bool) (table : list A) : list A :=
  filter cond table.

(** [.first()]: the first row of a result, [None] when there is none. *)
Definition first {A : Type} (rows : list A) : option A :=
  match rows with
  | [] => None
  | r :: _ => Some r
  end.

(** [.all()] *)
Definition all {A : Type} (rows : list A) : list A := rows.

(** The integer primary key SQLite gives to a row inserted without one:
    1 in an empty table, otherwise one more than the largest key in use
    (the exhaustion of 64-bit keys is left out). *)
Definition next_id (ids : list Z) : Z :=
  match ids with
  | [] => 1
  | i :: rest => fold_left Z.max rest i + 1
  end.

(** [session.add(Participant(email=..., activity_id=...)); session.commit()] *)
Definition add_participant (email : string) (activity_id : Z)
    (table : list Participant.t) : list Participant.t :=
  table ++ [Participant.mk (next_id (map Participant.id table)) email activity_id].

(** [session.delete(p); session.commit()]: DELETE by primary key. *)
Definition delete_participant (p : Participant.t)
    (table : list Participant.t) : list Participant.t :=
  filter (fun q => negb (Participant.id q =? Participant.id p)) table.

(** What a request comes back with: the returned body (status 200), an
    [HTTPException] raised by the handler, or any other exception, which
    the framework reports as status 500. *)
Inductive response (A : Type) : Type :=
| OK (body : A)
| HTTPException (status_code : Z) (detail : string)
| ServerError (exception : string).
Arguments OK {A} body.
Arguments HTTPException {A} status_code detail.
Arguments ServerError {A} exception.

Definition status_code {A : Type} (r : response A) : Z :=
  match r with
  | OK _ => 200
  | HTTPException c _ => c
  | ServerError _ => 500
  end.

(** ** Seeding *)

(** One entry of [initial]: name, description, schedule, max_participants. *)
Definition initial : list (string * string * string * Z) :=
  [ ("Chess Club"%string,
     "Learn strategies and compete in chess tournaments"%string,
     "Fridays, 3:30 PM - 5:00 PM"%string, 12);
    ("Programming Class"%string,
     "Learn programming fundamentals and build software projects"%string,
     "Tuesdays and Thursdays, 3:30 PM - 4:30 PM"%string, 20);
    ("Gym Class"%string,
     "Physical education and sports activities"%string,
     "Mondays, Wednesdays, Fridays, 2:00 PM - 3:00 PM"%string, 30);
    ("Soccer Team"%string,
     "Join the school soccer team and compete in matches"%string,
     "Tuesdays and Thursdays, 4:00 PM - 5:30 PM"%string, 22);
    ("Basketball Team"%string,
     "Practice and play basketball with the school team"%string,
     "Wednesdays and Fridays, 3:30 PM - 5:00 PM"%string, 15);
    ("Art Club"%string,
     "Explore your creativity through painting and drawing"%string,
     "Thursdays, 3:30 PM - 5:00 PM"%string, 15);
    ("Drama Club"%string,
     "Act, direct, and produce plays and performances"%string,
     "Mondays and Wednesdays, 4:00 PM - 5:30 PM"%string, 20);
    ("Math Club"%string,
     "Solve challenging problems and participate in math competitions"%string,
     "Tuesdays, 3:30 PM - 4:30 PM"%string, 10);
    ("Debate Team"%string,
     "Develop public speaking and argumentation skills"%string,
     "Fridays, 4:00 PM - 5:30 PM"%string, 12) ].

(** One turn of the loop over [initial]: build the [Activity] from the
    entry and [session.add] it. *)
Definition add_activity (table : list Activity.t)
    (act : string * string * string * Z) : list Activity.t :=
  let '(n, d, sch, m) := act in
  table ++ [Activity.mk (next_id (map Activity.id table)) n (Some d) (Some sch) m].

Definition seed_activities_if_empty (s : Store) : Store :=
  match first (all (activity s)) with
  | None => mkStore (fold_left add_activity initial (activity s)) (participant s)
  | Some _ => s
  end.

(** ** Handlers *)

(** One element of the list [get_activities] returns. *)
Record ActivityOut : Type := mkOut
  { out_name : string;
    out_description : option string;
    out_schedule : option string;
    out_max_participants : Z;
    out_participants : list string }.

(** [[p.email for p in participants]] for the activity with key [aid]. *)
Definition participants_of (s : Store) (aid : Z) : list string :=
  map Participant.email
      (all (select_where (fun p => Participant.activity_id p =? aid) (participant s))).

Definition get_activities (s : Store) : response (list ActivityOut) * Store :=
  (OK (map (fun a => mkOut (Activity.name a) (Activity.description a)
                           (Activity.schedule a) (Activity.max_participants a)
                           (participants_of s (Activity.id a)))
           (all (activity s))),
   s).

Section Signup.

(** [signup_for_activity] calls [.count()] on the result of
    [session.exec(select(Participant).where(...))].  What that call does
    belongs to the library, not to [app.py], so the handler is written
    over it: [result_count rows] is [Some k] when the call returns [k]
    and [None] when it raises. *)
Variable result_count : list Participant.t -> option Z.

Definition signup_for_activity (s : Store) (activity_name email : string)
    : response string * Store :=
  match first (select_where (fun a => String.eqb (Activity.name a) activity_name)
                            (activity s)) with
  | None => (HTTPException 404 "Activity not found", s)
  | Some act =>
      match first (select_where
                     (fun p => (Participant.activity_id p =? Activity.id act)
                               && String.eqb (Participant.email p) email)
                     (participant s)) with
      | Some _ => (HTTPException 400 "Student is already signed up", s)
      | None =>
          match result_count
                  (select_where (fun p => Participant.activity_id p =? Activity.id act)
                                (participant s)) with
          | None => (ServerError "AttributeError", s)
          | Some current_count =>
              if current_count >=? Activity.max_participants act
              then (HTTPException 400 "Activity is full", s)
              else (OK ("Signed up " ++ email ++ " for " ++ activity_name)%string,
                    mkStore (activity s)
                            (add_participant email (Activity.id act) (participant s)))
          end
      end
  end.

End Signup.

Definition unregister_from_activity (s : Store) (activity_name email : string)
    : response string * Store :=
  match first (select_where (fun a => String.eqb (Activity.name a) activity_name)
                            (activity s)) with
  | None => (HTTPException 404 "Activity not found", s)
  | Some act =>
      match first (select_where
                     (fun p => (Participant.activity_id p =? Activity.id act)
                               && String.eqb (Participant.email p) email)
                     (participant s)) with
      | None => (HTTPException 400 "Student is not signed up for this activity", s)
      | Some p =>
          (OK ("Unregistered " ++ email ++ " from " ++ activity_name)%string,
           mkStore (activity s) (delete_participant p (participant s)))
      end
  end.

(** The object [session.exec] returns for a [select] of one model is a
    [ScalarResult].  It has [first], [all], [one], [one_or_none],
    [fetchall], [fetchmany], [partitions] and [unique]; it has no [count]
    (that is a method of the legacy [Query] object), so the attribute
    lookup in [signup_for_activity] raises [AttributeError]. *)
Definition ScalarResult_count (rows : list Participant.t) : option Z := None.

(** A call that returns the number of rows of the result, as
    [Query.count()] or [len(result.all())] would.  It is not what the
    handler gets from its [.count()] call (that is [ScalarResult_count]);
    it only serves to instantiate the lemmas that hold for every
    behaviour of the call. *)
Definition rows_count (rows : list Participant.t) : option Z :=
  Some (Z.of_nat (List.length rows)).

(** A freshly created database, and the state the application starts
    from on its first run. *)
Definition empty_store : Store := mkStore [] [].
Definition seeded : Store := seed_activities_if_empty empty_store.

(** ** Requests and runs *)

Inductive request : Type :=
| GetActivities
| Signup (activity_name email : string)
| Unregister (activity_name email : string).

(** The tables after one request. *)
Definition handle (result_count : list Participant.t -> option Z)
    (s : Store) (r : request) : Store :=
  match r with
  | GetActivities => snd (get_activities s)
  | Signup n e => snd (signup_for_activity result_count s n e)
  | Unregister n e => snd (unregister_from_activity s n e)
  end.

(** The tables after a sequence of requests, served one after the other. *)
Definition run (result_count : list Participant.t -> option Z)
    (s : Store) (rs : list request) : Store :=
  fold_left (handle result_count) rs s.

(** ** Vocabulary of the properties *)

(** The activity a handler works on: the first row with that name. *)
Definition activity_named (s : Store) (n : string) : option Activity.t :=
  first (select_where (fun a => String.eqb (Activity.name a) n) (activity s)).

(** The rows that register [e] for the activity with key [aid]. *)
Definition registrations_of (s : Store) (aid : Z) (e : string) : list Participant.t :=
  select_where (fun p => (Participant.activity_id p =? aid)
                         && String.eqb (Participant.email p) e)
               (participant s).

(** The number of Participant rows of the activity with key [aid]. *)
Definition participant_count (s : Store) (aid : Z) : Z :=
  Z.of_nat (List.length (select_where (fun p => Participant.activity_id p =? aid)
                                      (participant s))).

(** The (activity_id, email) pairs of the Participant table. *)
Definition registrations (s : Store) : list (Z * string) :=
  map (fun p => (Participant.activity_id p, Participant.email p)) (participant s).

(** The foreign key [Participant.activity_id -> activity.id]. *)
Definition foreign_keys_ok (s : Store) : Prop :=
  forall p, In p (participant s) ->
            exists a, In a (activity s) /\ Activity.id a = Participant.activity_id p.

(** Every activity has at most [max_participants] Participant rows. *)
Definition within_capacity (s : Store) : Prop :=
  forall a, In a (activity s) ->
            participant_count s (Activity.id a) <= Activity.max_participants a.

(** The primary key of the Activity table. *)
Definition activity_keys_distinct (s : Store) : Prop :=
  NoDup (map Activity.id (activity s)).

(** The primary key of the Participant table. *)
Definition participant_keys_distinct (s : Store) : Prop :=
  NoDup (map Participant.id (participant s)).

(** No email has two rows for one activity. *)
Definition registered_at_most_once (s : Store) : Prop :=
  forall aid e, (List.length (registrations_of s aid e) <= 1)%nat.

(** The name, description, schedule and capacity of an Activity row. *)
Definition fields (a : Activity.t) : string * option string * option string * Z :=
  (Activity.name a, Activity.description a, Activity.schedule a,
   Activity.max_participants a).

(** Rows with which the examples below are built. *)
Definition chess_club : Activity.t :=
  Activity.mk 1 "Chess Club"
    (Some "Learn strategies and compete in chess tournaments"%string)
    (Some "Fridays, 3:30 PM - 5:00 PM"%string) 12.

(** The seeded activities with one registration for Chess Club. *)
Definition one_signed_up : Store :=
  mkStore (activity seeded) [Participant.mk 1 "a@x.com" 1].

(** An empty Activity table beside a Participant row that carries the
    key 1 (SQLite does not enforce the foreign key unless asked to). *)
Definition row_without_activity : Store :=
  mkStore [] [Participant.mk 1 "a@x.com" 1].

(** The seeded activities with the same email twice in Chess Club, as two
    rows with their own keys. *)
Definition signed_up_twice : Store :=
  mkStore (activity seeded)
          [Participant.mk 1 "a@x.com" 1; Participant.mk 2 "a@x.com" 1].

(** The seeded activities with Math Club (key 8, capacity 10) full. *)
Definition math_club_full : Store :=
  mkStore (activity seeded)
          (map (fun i => Participant.mk i "s@x.com" 8) [1; 2; 3; 4; 5; 6; 7; 8; 9; 10]).

(** * Properties *)

(** ** Lists and results *)

Lemma first_none {A : Type} (rows : list A) :
  first rows = None -> rows = [].
Proof. destruct rows; [reflexivity | discriminate]. Qed.

Lemma first_select_in {A : Type} (cond : A -> bool) (table : list A) (r : A) :
  first (select_where cond table) = Some r -> In r table /\ cond r = true.
Proof.
  unfold select_where. intros H.
  assert (Hin : In r (filter cond table)).
  { destruct (filter cond table); [discriminate | injection H as ->; now left]. }
  now apply filter_In in Hin.
Qed.

Lemma select_nil_false {A : Type} (cond : A -> bool) (table : list A) :
  select_where cond table = [] -> forall r, In r table -> cond r = false.
Proof.
  unfold select_where. intros H r Hin.
  destruct (cond r) eqn:E; [|reflexivity].
  assert (Hf : In r (filter cond table)) by (apply filter_In; auto).
  rewrite H in Hf. destruct Hf.
Qed.

Lemma false_select_nil {A : Type} (cond : A -> bool) (table : list A) :
  (forall r, In r table -> cond r = false) -> select_where cond table = [].
Proof.
  unfold select_where. induction table as [|x l IH]; intros H; simpl; [reflexivity|].
  rewrite (H x (or_introl eq_refl)). apply IH. intros r Hr. apply H. now right.
Qed.

Lemma filter_swap {A : Type} (f g : A -> bool) (l : list A) :
  filter f (filter g l) = filter g (filter f l).
Proof.
  induction l as [|x l IH]; simpl; [reflexivity|].
  destruct (g x) eqn:Eg, (f x) eqn:Ef; simpl; rewrite ?Eg, ?Ef, IH; reflexivity.
Qed.

Lemma filter_filter_length {A : Type} (f g : A -> bool) (l : list A) :
  (List.length (filter f (filter g l)) <= List.length (filter f l))%nat.
Proof.
  induction l as [|x l IH]; simpl; [lia|].
  destruct (g x); simpl; destruct (f x); simpl; lia.
Qed.

(** Every key in use is below the next one. *)
Lemma fold_max_ge (rest : list Z) (i : Z) :
  i <= fold_left Z.max rest i /\ forall j, In j rest -> j <= fold_left Z.max rest i.
Proof.
  revert i. induction rest as [|x rest IH]; intros i; simpl.
  - split; [lia | intros j []].
  - destruct (IH (Z.max i x)) as [H1 H2]. split; [lia|].
    intros j [<- | Hj]; [lia | auto].
Qed.

Lemma next_id_fresh (ids : list Z) (i : Z) : In i ids -> i < next_id ids.
Proof.
  destruct ids as [|x rest]; [intros []|]. unfold next_id.
  destruct (fold_max_ge rest x) as [H1 H2].
  intros [<- | Hi]; [lia | specialize (H2 _ Hi); lia].
Qed.

(** Deleting the row just added gives the table back. *)
Lemma delete_added (e : string) (aid : Z) (table : list Participant.t) :
  delete_participant
    (Participant.mk (next_id (map Participant.id table)) e aid)
    (add_participant e aid table) = table.
Proof.
  unfold delete_participant, add_participant. rewrite filter_app. simpl.
  rewrite Z.eqb_refl. simpl. rewrite app_nil_r.
  apply forallb_filter_id. apply forallb_forall. intros q Hq.
  apply negb_true_iff, Z.eqb_neq.
  assert (Participant.id q < next_id (map Participant.id table))
    by (apply next_id_fresh, in_map, Hq).
  lia.
Qed.

(** [e] is listed for an activity exactly when a row registers it. *)
Lemma listed_iff_registered (s : Store) (aid : Z) (e : string) :
  In e (participants_of s aid) <-> registrations_of s aid e <> [].
Proof.
  unfold participants_of, registrations_of, all, select_where. split.
  - intros H. apply in_map_iff in H as (p & He & Hp).
    apply filter_In in Hp as [Hp Ha].
    assert (Hf : In p (filter (fun p => (Participant.activity_id p =? aid)
                                        && String.eqb (Participant.email p) e)
                              (participant s))).
    { apply filter_In. split; [assumption|].
      rewrite Ha. simpl. apply String.eqb_eq. assumption. }
    intros Hnil. rewrite Hnil in Hf. destruct Hf.
  - intros H.
    destruct (filter _ (participant s)) as [|p l] eqn:E; [congruence|].
    assert (Hp : In p (filter (fun p => (Participant.activity_id p =? aid)
                                        && String.eqb (Participant.email p) e)
                              (participant s))) by (rewrite E; now left).
    apply filter_In in Hp as [Hp Hc]. apply andb_true_iff in Hc as [Ha He].
    apply in_map_iff. exists p. split; [now apply String.eqb_eq|].
    apply filter_In. auto.
Qed.

(** ** The handlers, case by case *)

(** The 404 branch, shared by both handlers. *)
Lemma no_such_name (s : Store) (n : string) :
  (forall a, In a (activity s) -> Activity.name a <> n) ->
  activity_named s n = None.
Proof.
  intros H. unfold activity_named. rewrite false_select_nil; [reflexivity|].
  intros a Ha. apply String.eqb_neq. auto.
Qed.

(** Once the activity is found and no row registers [e] for it, the answer
    of [signup_for_activity] is decided by the [.count()] call. *)
Lemma signup_after_checks (result_count : list Participant.t -> option Z)
    (s : Store) (n e : string) (act : Activity.t) :
  activity_named s n = Some act ->
  registrations_of s (Activity.id act) e = [] ->
  signup_for_activity result_count s n e =
    match result_count (select_where
                          (fun p => Participant.activity_id p =? Activity.id act)
                          (participant s)) with
    | None => (ServerError "AttributeError", s)
    | Some current_count =>
        if current_count >=? Activity.max_participants act
        then (HTTPException 400 "Activity is full", s)
        else (OK ("Signed up " ++ e ++ " for " ++ n)%string,
              mkStore (activity s) (add_participant e (Activity.id act) (participant s)))
    end.
Proof.
  unfold activity_named, registrations_of, signup_for_activity.
  intros -> ->. reflexivity.
Qed.

(** With a call that returns the number of rows, the capacity check does
    what its two branches say. *)
Lemma signup_counted_ok (s : Store) (n e : string) (act : Activity.t) :
  activity_named s n = Some act ->
  ~ In e (participants_of s (Activity.id act)) ->
  participant_count s (Activity.id act) < Activity.max_participants act ->
  exists s',
    signup_for_activity rows_count s n e
      = (OK ("Signed up " ++ e ++ " for " ++ n)%string, s')
    /\ In e (participants_of s' (Activity.id act)).
Proof.
  intros Ha Hnot Hlt.
  assert (Hreg : registrations_of s (Activity.id act) e = []).
  { destruct (registrations_of s (Activity.id act) e) eqn:E; [reflexivity|].
    exfalso. apply Hnot, listed_iff_registered. rewrite E. discriminate. }
  rewrite (signup_after_checks _ _ _ _ _ Ha Hreg).
  unfold rows_count. unfold participant_count in Hlt.
  destruct (Z.geb_spec
              (Z.of_nat (List.length
                 (select_where (fun p => Participant.activity_id p =? Activity.id act)
                               (participant s))))
              (Activity.max_participants act)) as [Hge | _]; [lia|].
  eexists. split; [reflexivity|].
  unfold participants_of, all, select_where, add_participant. simpl.
  rewrite filter_app, map_app. apply in_or_app. right. simpl.
  rewrite Z.eqb_refl. now left.
Qed.

Lemma signup_counted_full (s : Store) (n e : string) (act : Activity.t) :
  activity_named s n = Some act ->
  ~ In e (participants_of s (Activity.id act)) ->
  participant_count s (Activity.id act) >= Activity.max_participants act ->
  signup_for_activity rows_count s n e = (HTTPException 400 "Activity is full", s).
Proof.
  intros Ha Hnot Hge.
  assert (Hreg : registrations_of s (Activity.id act) e = []).
  { destruct (registrations_of s (Activity.id act) e) eqn:E; [reflexivity|].
    exfalso. apply Hnot, listed_iff_registered. rewrite E. discriminate. }
  rewrite (signup_after_checks _ _ _ _ _ Ha Hreg).
  unfold rows_count. unfold participant_count in Hge.
  destruct (Z.geb_spec
              (Z.of_nat (List.length
                 (select_where (fun p => Participant.activity_id p =? Activity.id act)
                               (participant s))))
              (Activity.max_participants act)) as [_ | Hlt]; [reflexivity | lia].
Qed.

(** No handler writes to the Activity table. *)
Lemma signup_keeps_activities (result_count : list Participant.t -> option Z)
    (s : Store) (n e : string) :
  activity (snd (signup_for_activity result_count s n e)) = activity s.
Proof.
  unfold signup_for_activity.
  destruct (first (select_where _ (activity s))) as [act|]; [|reflexivity].
  destruct (first (select_where _ (participant s))); [reflexivity|].
  destruct (result_count _) as [k|]; [|reflexivity].
  destruct (k >=? Activity.max_participants act); reflexivity.
Qed.

Lemma unregister_keeps_activities (s : Store) (n e : string) :
  activity (snd (unregister_from_activity s n e)) = activity s.
Proof.
  unfold unregister_from_activity.
  destruct (first (select_where _ (activity s))) as [act|]; [|reflexivity].
  destruct (first (select_where _ (participant s))); reflexivity.
Qed.

Lemma handle_keeps_activities (result_count : list Participant.t -> option Z)
    (s : Store) (r : request) :
  activity (handle result_count s r) = activity s.
Proof.
  destruct r; simpl;
    [reflexivity | apply signup_keeps_activities | apply unregister_keeps_activities].
Qed.

(** ** Signup *)

(** C1 (the handler does not do this): signing up a new email for an
    existing activity that is not full should answer 200 and list the
    email.  On the seeded tables Chess Club exists, a@x.com is not in it
    and it has 0 of 12 participants, yet the request ends in the
    [AttributeError] of the [.count()] call (status 500) and the tables
    stay as they were, so the email is not listed. *)
Theorem signup_new_email_raises :
  activity_named seeded "Chess Club" = Some chess_club /\
  ~ In "a@x.com"%string (participants_of seeded (Activity.id chess_club)) /\
  participant_count seeded (Activity.id chess_club)
    < Activity.max_participants chess_club /\
  signup_for_activity ScalarResult_count seeded "Chess Club" "a@x.com"
    = (ServerError "AttributeError", seeded) /\
  status_code (fst (signup_for_activity ScalarResult_count seeded
                      "Chess Club" "a@x.com")) = 500 /\
  ~ In "a@x.com"%string
       (participants_of (snd (signup_for_activity ScalarResult_count seeded
                                "Chess Club" "a@x.com"))
                        (Activity.id chess_club)).
Proof.
  repeat split; try reflexivity; intros H; exact H.
Qed.

(** C2: when [e] is already listed for the activity named [n], signup
    answers 400 "Student is already signed up" and leaves the tables, and
    so the activity's participant count, as they were. *)
Theorem signup_twice_conflict (result_count : list Participant.t -> option Z)
    (s : Store) (n e : string) (act : Activity.t) :
  activity_named s n = Some act ->
  In e (participants_of s (Activity.id act)) ->
  signup_for_activity result_count s n e
    = (HTTPException 400 "Student is already signed up", s)
  /\ participant_count (snd (signup_for_activity result_count s n e)) (Activity.id act)
     = participant_count s (Activity.id act).
Proof.
  intros Ha Hin.
  assert (E : signup_for_activity result_count s n e
              = (HTTPException 400 "Student is already signed up", s)).
  { apply listed_iff_registered in Hin.
    unfold activity_named in Ha. unfold registrations_of in Hin.
    unfold signup_for_activity. rewrite Ha.
    destruct (select_where _ (participant s)); [congruence | reflexivity]. }
  rewrite E. split; reflexivity.
Qed.

Lemma signup_twice_conflict_witness :
  signup_for_activity ScalarResult_count one_signed_up "Chess Club" "a@x.com"
    = (HTTPException 400 "Student is already signed up", one_signed_up)
  /\ participant_count
       (snd (signup_for_activity ScalarResult_count one_signed_up
               "Chess Club" "a@x.com")) 1
     = participant_count one_signed_up 1.
Proof.
  apply (signup_twice_conflict ScalarResult_count one_signed_up
           "Chess Club" "a@x.com" chess_club).
  - reflexivity.
  - simpl. left. reflexivity.
Defined.

(** C3 (the handler does not do this): signing up for a full activity
    should answer 400 "Activity is full".  With Math Club at its 10
    participants and a new email, the request ends in the
    [AttributeError] of the [.count()] call (status 500) instead; no row
    is created. *)
Theorem signup_full_raises :
  activity_named math_club_full "Math Club" <> None /\
  ~ In "new@x.com"%string (participants_of math_club_full 8) /\
  participant_count math_club_full 8 = 10 /\
  signup_for_activity ScalarResult_count math_club_full "Math Club" "new@x.com"
    = (ServerError "AttributeError", math_club_full) /\
  signup_for_activity ScalarResult_count math_club_full "Math Club" "new@x.com"
    <> (HTTPException 400 "Activity is full", math_club_full).
Proof.
  split; [discriminate|]. split.
  - simpl. intros H. repeat (destruct H as [H | H]; [discriminate|]). exact H.
  - split; [reflexivity|]. split; [reflexivity | discriminate].
Qed.

(** ** Unregister *)

(** The rows that register [e] after the row [p] is deleted. *)
Lemma registrations_after_delete (s : Store) (aid : Z) (e : string) (p : Participant.t) :
  registrations_of (mkStore (activity s) (delete_participant p (participant s))) aid e
  = filter (fun q => negb (Participant.id q =? Participant.id p))
           (registrations_of s aid e).
Proof.
  unfold registrations_of, select_where, delete_participant. simpl.
  apply filter_swap.
Qed.

(** C4, as amended: when exactly one row registers [e] for the activity
    named [n], unregister answers 200 with its confirmation message, [e]
    is no longer listed for that activity, and a second unregister on the
    resulting tables answers 400 "Student is not signed up for this
    activity". *)
Theorem unregister_registered_once (s : Store) (n e : string) (act : Activity.t) :
  activity_named s n = Some act ->
  List.length (registrations_of s (Activity.id act) e) = 1%nat ->
  exists s',
    unregister_from_activity s n e
      = (OK ("Unregistered " ++ e ++ " from " ++ n)%string, s')
    /\ status_code (fst (unregister_from_activity s n e)) = 200
    /\ ~ In e (participants_of s' (Activity.id act))
    /\ unregister_from_activity s' n e
       = (HTTPException 400 "Student is not signed up for this activity", s').
Proof.
  intros Ha Hone.
  destruct (registrations_of s (Activity.id act) e) as [|p [|q l]] eqn:E;
    try discriminate.
  set (s' := mkStore (activity s) (delete_participant p (participant s))).
  assert (Hun : unregister_from_activity s n e
                = (OK ("Unregistered " ++ e ++ " from " ++ n)%string, s')).
  { unfold unregister_from_activity.
    unfold activity_named in Ha. rewrite Ha.
    unfold registrations_of in E. rewrite E. reflexivity. }
  assert (Hgone : registrations_of s' (Activity.id act) e = []).
  { unfold s'. rewrite registrations_after_delete, E. simpl.
    rewrite Z.eqb_refl. reflexivity. }
  exists s'. split; [exact Hun|]. split; [rewrite Hun; reflexivity|]. split.
  - intros Hin. apply listed_iff_registered in Hin. congruence.
  - unfold unregister_from_activity.
    change (activity s') with (activity s).
    unfold activity_named in Ha. rewrite Ha.
    unfold registrations_of in Hgone. rewrite Hgone. reflexivity.
Qed.

Lemma unregister_registered_once_witness :
  exists s',
    unregister_from_activity one_signed_up "Chess Club" "a@x.com"
      = (OK "Unregistered a@x.com from Chess Club"%string, s')
    /\ status_code (fst (unregister_from_activity one_signed_up
                           "Chess Club" "a@x.com")) = 200
    /\ ~ In "a@x.com"%string (participants_of s' 1)
    /\ unregister_from_activity s' "Chess Club" "a@x.com"
       = (HTTPException 400 "Student is not signed up for this activity", s').
Proof.
  apply (unregister_registered_once one_signed_up "Chess Club" "a@x.com" chess_club).
  - reflexivity.
  - reflexivity.
Defined.

(** C4, as first stated, fails when two rows register the same email for
    the activity (nothing in the tables forbids it): a@x.com is listed
    for Chess Club, the first unregister answers 200 and deletes one row,
    the email is still listed afterwards, and the second unregister
    answers 200 again instead of 400. *)
Lemma unregister_twice_registered :
  activity_named signed_up_twice "Chess Club" = Some chess_club /\
  In "a@x.com"%string (participants_of signed_up_twice (Activity.id chess_club)) /\
  status_code (fst (unregister_from_activity signed_up_twice
                      "Chess Club" "a@x.com")) = 200 /\
  In "a@x.com"%string
     (participants_of (snd (unregister_from_activity signed_up_twice
                              "Chess Club" "a@x.com"))
                      (Activity.id chess_club)) /\
  status_code (fst (unregister_from_activity
                      (snd (unregister_from_activity signed_up_twice
                              "Chess Club" "a@x.com"))
                      "Chess Club" "a@x.com")) = 200.
Proof.
  split; [reflexivity|]. split; [simpl; now left|].
  split; [reflexivity|]. split; [simpl; now left | reflexivity].
Qed.

(** ** Unknown activity *)

(** C5: when no Activity row has the name [n], signup and unregister both
    answer 404 "Activity not found", for every email, and leave the
    tables as they were. *)
Theorem unknown_activity_not_found (result_count : list Participant.t -> option Z)
    (s : Store) (n e : string) :
  (forall a, In a (activity s) -> Activity.name a <> n) ->
  signup_for_activity result_count s n e
    = (HTTPException 404 "Activity not found", s)
  /\ unregister_from_activity s n e
     = (HTTPException 404 "Activity not found", s).
Proof.
  intros H. apply no_such_name in H. unfold activity_named in H.
  unfold signup_for_activity, unregister_from_activity. rewrite H.
  split; reflexivity.
Qed.

Lemma unknown_activity_not_found_witness :
  signup_for_activity ScalarResult_count seeded "Knitting Circle" "a@x.com"
    = (HTTPException 404 "Activity not found", seeded)
  /\ unregister_from_activity seeded "Knitting Circle" "a@x.com"
     = (HTTPException 404 "Activity not found", seeded).
Proof.
  apply (unknown_activity_not_found ScalarResult_count seeded
           "Knitting Circle" "a@x.com").
  simpl. intros a H.
  repeat (destruct H as [<- | H]; [discriminate|]). destruct H.
Defined.

(** ** The Activity table is read-only *)

(** C7: listing, signup and unregister leave the Activity table, row by
    row and field by field, as it was. *)
Theorem activities_never_change (result_count : list Participant.t -> option Z)
    (s : Store) (n e : string) :
  activity (snd (get_activities s)) = activity s
  /\ activity (snd (signup_for_activity result_count s n e)) = activity s
  /\ activity (snd (unregister_from_activity s n e)) = activity s.
Proof.
  split; [reflexivity|].
  split; [apply signup_keeps_activities | apply unregister_keeps_activities].
Qed.

(** ** Capacity *)

Lemma same_key_same_row (l : list Activity.t) (a b : Activity.t) :
  NoDup (map Activity.id l) -> In a l -> In b l ->
  Activity.id a = Activity.id b -> a = b.
Proof.
  induction l as [|x l IH]; simpl; [intros _ []|].
  intros Hnd Ha Hb Hid. inversion Hnd as [|? ? Hx Hl]; subst.
  destruct Ha as [-> | Ha], Hb as [-> | Hb].
  - reflexivity.
  - exfalso. apply Hx. rewrite Hid. apply in_map, Hb.
  - exfalso. apply Hx. rewrite <- Hid. apply in_map, Ha.
  - auto.
Qed.

Section Capacity.

Variable result_count : list Participant.t -> option Z.

(** When the [.count()] call returns, it returns the number of rows. *)
Hypothesis count_is_length :
  forall rows k, result_count rows = Some k -> k = Z.of_nat (List.length rows).

Lemma signup_within_capacity (s : Store) (n e : string) :
  activity_keys_distinct s -> within_capacity s ->
  within_capacity (snd (signup_for_activity result_count s n e)).
Proof.
  intros Hkeys Hcap. unfold signup_for_activity.
  destruct (first (select_where _ (activity s))) as [act|] eqn:Ea; [|exact Hcap].
  destruct (first (select_where _ (participant s))); [exact Hcap|].
  destruct (result_count _) as [k|] eqn:Ek; [|exact Hcap].
  destruct (Z.geb_spec k (Activity.max_participants act)) as [_ | Hlt]; [exact Hcap|].
  apply count_is_length in Ek. apply first_select_in in Ea as [Hact _].
  intros a Ha. simpl in Ha. unfold participant_count, select_where, add_participant.
  simpl. rewrite filter_app, length_app. simpl.
  destruct (Z.eqb_spec (Activity.id act) (Activity.id a)) as [Hid | Hid].
  - assert (a = act) by (symmetry; now apply (same_key_same_row (activity s))).
    subst a. unfold select_where in Ek. simpl. lia.
  - specialize (Hcap a Ha). unfold participant_count, select_where in Hcap.
    simpl. lia.
Qed.

Lemma unregister_within_capacity (s : Store) (n e : string) :
  within_capacity s ->
  within_capacity (snd (unregister_from_activity s n e)).
Proof.
  intros Hcap. unfold unregister_from_activity.
  destruct (first (select_where _ (activity s))) as [act|]; [|exact Hcap].
  destruct (first (select_where _ (participant s))) as [p|]; [|exact Hcap].
  intros a Ha. simpl in Ha. specialize (Hcap a Ha).
  unfold participant_count, select_where, delete_participant in *. simpl.
  pose proof (filter_filter_length
                (fun q => Participant.activity_id q =? Activity.id a)
                (fun q => negb (Participant.id q =? Participant.id p))
                (participant s)).
  lia.
Qed.

Lemma handle_within_capacity (s : Store) (r : request) :
  activity_keys_distinct s -> within_capacity s ->
  within_capacity (handle result_count s r).
Proof.
  intros Hkeys Hcap. destruct r; simpl.
  - exact Hcap.
  - now apply signup_within_capacity.
  - now apply unregister_within_capacity.
Qed.

Lemma run_within_capacity (rs : list request) (s : Store) :
  activity_keys_distinct s -> within_capacity s ->
  within_capacity (run result_count s rs).
Proof.
  unfold run. revert s. induction rs as [|r rs IH]; intros s Hkeys Hcap; simpl.
  - exact Hcap.
  - apply IH.
    + unfold activity_keys_distinct. now rewrite handle_keeps_activities.
    + now apply handle_within_capacity.
Qed.

(** C6: after any sequence of signup, unregister and list requests
    served one after the other on the freshly seeded tables, no
    activity has more Participant rows than its [max_participants]. *)
Theorem capacity_never_exceeded (rs : list request) (a : Activity.t) :
  In a (activity (run result_count seeded rs)) ->
  participant_count (run result_count seeded rs) (Activity.id a)
    <= Activity.max_participants a.
Proof.
  revert a. apply run_within_capacity.
  - unfold activity_keys_distinct. simpl.
    repeat (constructor; [simpl; intuition discriminate|]). constructor.
  - intros a Ha. simpl in Ha.
    repeat (destruct Ha as [<- | Ha]; [discriminate|]). destruct Ha.
Qed.

End Capacity.

Lemma capacity_never_exceeded_witness :
  participant_count
    (run rows_count seeded
         [Signup "Chess Club" "a@x.com"; GetActivities;
          Signup "Chess Club" "b@x.com"; Unregister "Chess Club" "a@x.com"])
    (Activity.id chess_club)
  <= Activity.max_participants chess_club.
Proof.
  apply (capacity_never_exceeded rows_count).
  - intros rows k H. injection H as <-. reflexivity.
  - vm_compute. left. reflexivity.
Defined.

(** ** Seeding *)

(** C8, as amended: on tables whose Activity table is empty, the seeding
    routine inserts the nine activities of [initial], in that order,
    under the keys 1 to 9 and with the listed name, description, schedule
    and capacity; it writes no Participant row, so every seeded activity
    has no participants provided no Participant row already carries one
    of the keys 1 to 9 (as on a fresh database).  On a non-empty Activity
    table it changes nothing. *)
Theorem seed_activities_if_empty_spec (s : Store) :
  (activity s = [] ->
     map fields (activity (seed_activities_if_empty s))
       = map (fun '(n, d, sch, m) => (n, Some d, Some sch, m)) initial
     /\ map Activity.id (activity (seed_activities_if_empty s))
        = [1; 2; 3; 4; 5; 6; 7; 8; 9]
     /\ participant (seed_activities_if_empty s) = participant s
     /\ ((forall p, In p (participant s) ->
                    Participant.activity_id p < 1 \/ 9 < Participant.activity_id p) ->
         forall a, In a (activity (seed_activities_if_empty s)) ->
                   participants_of (seed_activities_if_empty s) (Activity.id a) = []))
  /\ (activity s <> [] -> seed_activities_if_empty s = s).
Proof.
  destruct s as [acts parts]. simpl. split.
  - intros ->. unfold seed_activities_if_empty. simpl.
    repeat split. intros Hkeys a Ha.
    assert (Hid : 1 <= Activity.id a <= 9).
    { repeat (destruct Ha as [<- | Ha]; [simpl; lia|]). destruct Ha. }
    unfold participants_of, all. simpl.
    rewrite false_select_nil; [reflexivity|].
    intros p Hp. apply Z.eqb_neq. specialize (Hkeys p Hp). lia.
  - intros Hne. destruct acts as [|a acts]; [congruence | reflexivity].
Qed.

Lemma seed_activities_if_empty_spec_witness :
  (map fields
       (activity (seed_activities_if_empty
                    (mkStore [] [Participant.mk 1 "a@x.com" 42])))
     = map (fun '(n, d, sch, m) => (n, Some d, Some sch, m)) initial
   /\ map Activity.id
          (activity (seed_activities_if_empty
                       (mkStore [] [Participant.mk 1 "a@x.com" 42])))
      = [1; 2; 3; 4; 5; 6; 7; 8; 9]
   /\ participant (seed_activities_if_empty
                     (mkStore [] [Participant.mk 1 "a@x.com" 42]))
      = [Participant.mk 1 "a@x.com" 42]
   /\ (forall a,
         In a (activity (seed_activities_if_empty
                           (mkStore [] [Participant.mk 1 "a@x.com" 42]))) ->
         participants_of (seed_activities_if_empty
                            (mkStore [] [Participant.mk 1 "a@x.com" 42]))
                         (Activity.id a) = []))
  /\ seed_activities_if_empty one_signed_up = one_signed_up.
Proof.
  split.
  - destruct (proj1 (seed_activities_if_empty_spec
                       (mkStore [] [Participant.mk 1 "a@x.com" 42])) eq_refl)
      as (Hf & Hk & Hp & He).
    split; [exact Hf|]. split; [exact Hk|]. split; [exact Hp|].
    apply He. simpl. intros p [<- | []]. simpl. lia.
  - apply (proj2 (seed_activities_if_empty_spec one_signed_up)). discriminate.
Defined.

(** C8, as first stated, fails on an empty Activity table beside a
    Participant row that already carries the key 1: the seeding routine
    gives Chess Club that key, so Chess Club starts with a@x.com as a
    participant. *)
Lemma seed_adopts_existing_row :
  activity row_without_activity = [] /\
  In chess_club (activity (seed_activities_if_empty row_without_activity)) /\
  participants_of (seed_activities_if_empty row_without_activity)
                  (Activity.id chess_club)
  = ["a@x.com"%string].
Proof.
  split; [reflexivity|]. split; [simpl; left; reflexivity | reflexivity].
Qed.

(** ** One activity at a time *)

Lemma filter_andb {A : Type} (f g : A -> bool) (l : list A) :
  filter (fun x => f x && g x) l = filter g (filter f l).
Proof.
  induction l as [|x l IH]; simpl; [reflexivity|].
  destruct (f x); simpl; [destruct (g x)|]; rewrite IH; reflexivity.
Qed.

(** The answer of signup for the activity named [n] is a function of the
    Activity table and of the Participant rows of that activity: two
    states that agree on these get the same answer, whatever the rows of
    the other activities are. *)
Lemma signup_reads_own_rows (result_count : list Participant.t -> option Z)
    (s1 s2 : Store) (n e : string) (act : Activity.t) :
  activity s1 = activity s2 ->
  activity_named s1 n = Some act ->
  select_where (fun p => Participant.activity_id p =? Activity.id act) (participant s1)
  = select_where (fun p => Participant.activity_id p =? Activity.id act) (participant s2) ->
  fst (signup_for_activity result_count s1 n e)
  = fst (signup_for_activity result_count s2 n e).
Proof.
  unfold activity_named, signup_for_activity. intros Hact Ha Hrows.
  rewrite <- Hact, Ha.
  unfold select_where in *.
  rewrite !(filter_andb (fun p => Participant.activity_id p =? Activity.id act)
                        (fun p => String.eqb (Participant.email p) e)).
  rewrite <- Hrows.
  destruct (first (filter _ (filter _ (participant s1)))); [reflexivity|].
  destruct (result_count _) as [k|]; [|reflexivity].
  destruct (k >=? Activity.max_participants act); reflexivity.
Qed.

(** With the [.count()] call as it is, signup writes nothing and never
    answers 200. *)
Lemma signup_never_succeeds (s : Store) (n e : string) :
  snd (signup_for_activity ScalarResult_count s n e) = s
  /\ forall msg, fst (signup_for_activity ScalarResult_count s n e) <> OK msg.
Proof.
  unfold signup_for_activity, ScalarResult_count.
  destruct (first (select_where _ (activity s))); [|split; [reflexivity | discriminate]].
  destruct (first (select_where _ (participant s)));
    split; try reflexivity; discriminate.
Qed.

(** C10 (the handler does not do this): an email registered for one
    activity should still be able to sign up for another existing
    activity that is not full.  With a@x.com in Chess Club only and
    Programming Class at 0 of 20, signing a@x.com up for Programming
    Class meets neither the duplicate nor the capacity refusal, but ends
    in the [AttributeError] of the [.count()] call (status 500), and the
    email is not listed for Programming Class. *)
Theorem signup_other_activity_raises :
  In "a@x.com"%string (participants_of one_signed_up 1) /\
  ~ In "a@x.com"%string (participants_of one_signed_up 2) /\
  participant_count one_signed_up 2 < 20 /\
  signup_for_activity ScalarResult_count one_signed_up "Programming Class" "a@x.com"
    = (ServerError "AttributeError", one_signed_up) /\
  ~ In "a@x.com"%string
       (participants_of
          (snd (signup_for_activity ScalarResult_count one_signed_up
                  "Programming Class" "a@x.com")) 2).
Proof.
  split; [simpl; now left|]. split; [intros H; exact H|].
  split; [reflexivity|]. split; [reflexivity | intros H; exact H].
Qed.

(** * Further properties of the seeding routine and the handlers *)

(** ** Start-up *)

Lemma seed_nonempty (s : Store) :
  activity s <> [] -> seed_activities_if_empty s = s.
Proof.
  unfold seed_activities_if_empty, all.
  destruct (activity s); [congruence | reflexivity].
Qed.

Lemma seed_gives_activities (s : Store) :
  activity (seed_activities_if_empty s) <> [].
Proof.
  destruct s as [[|a acts] parts]; discriminate.
Qed.

Lemma run_keeps_activities (result_count : list Participant.t -> option Z)
    (rs : list request) (s : Store) :
  activity (run result_count s rs) = activity s.
Proof.
  unfold run. revert s. induction rs as [|r rs IH]; intros s; simpl; [reflexivity|].
  rewrite IH. apply handle_keeps_activities.
Qed.

(** X1: the seeding routine is idempotent: running it a second time, on
    any tables, changes nothing. *)
Theorem seed_twice (s : Store) :
  seed_activities_if_empty (seed_activities_if_empty s) = seed_activities_if_empty s.
Proof.
  apply seed_nonempty, seed_gives_activities.
Qed.

(** X2: once the tables have been seeded, a restart of the application
    (which runs the seeding routine again) after any sequence of requests
    leaves both tables as the requests left them. *)
Theorem restart_keeps_tables (result_count : list Participant.t -> option Z)
    (s : Store) (rs : list request) :
  seed_activities_if_empty (run result_count (seed_activities_if_empty s) rs)
  = run result_count (seed_activities_if_empty s) rs.
Proof.
  apply seed_nonempty. rewrite run_keeps_activities. apply seed_gives_activities.
Qed.

(** X3: no sequence of requests adds, removes, reorders or alters an
    Activity row: the Activity table after the requests is the table of
    before, and so a name resolves to the same row (or to none). *)
Theorem activities_stable_over_runs (result_count : list Participant.t -> option Z)
    (s : Store) (rs : list request) :
  activity (run result_count s rs) = activity s
  /\ forall n, activity_named (run result_count s rs) n = activity_named s n.
Proof.
  split; [apply run_keeps_activities|].
  intros n. unfold activity_named. now rewrite run_keeps_activities.
Qed.

(** ** Refusals *)

(** X4: a signup or unregister request that is not answered with 200
    leaves both tables exactly as they were. *)
Theorem refused_request_changes_nothing (result_count : list Participant.t -> option Z)
    (s : Store) (n e : string) :
  (status_code (fst (signup_for_activity result_count s n e)) <> 200 ->
   snd (signup_for_activity result_count s n e) = s)
  /\ (status_code (fst (unregister_from_activity s n e)) <> 200 ->
      snd (unregister_from_activity s n e) = s).
Proof.
  unfold signup_for_activity, unregister_from_activity.
  destruct (first (select_where _ (activity s))) as [act|]; [|split; reflexivity].
  split.
  - destruct (first (select_where _ (participant s))); [reflexivity|].
    destruct (result_count _) as [k|]; [|reflexivity].
    destruct (k >=? Activity.max_participants act); [reflexivity|].
    simpl. congruence.
  - destruct (first (select_where _ (participant s))); [|reflexivity].
    simpl. congruence.
Qed.

Lemma refused_request_changes_nothing_witness :
  snd (signup_for_activity rows_count math_club_full "Math Club" "new@x.com")
    = math_club_full
  /\ snd (unregister_from_activity math_club_full "Math Club" "new@x.com")
     = math_club_full.
Proof.
  split.
  - apply (proj1 (refused_request_changes_nothing rows_count math_club_full
                    "Math Club" "new@x.com")).
    vm_compute. discriminate.
  - apply (proj2 (refused_request_changes_nothing rows_count math_club_full
                    "Math Club" "new@x.com")).
    vm_compute. discriminate.
Defined.

(** X5: unregister is answered with 200 exactly when the name resolves to
    an activity for which the email is listed. *)
Theorem unregister_succeeds_iff (s : Store) (n e : string) :
  status_code (fst (unregister_from_activity s n e)) = 200
  <-> exists act, activity_named s n = Some act
                  /\ In e (participants_of s (Activity.id act)).
Proof.
  unfold unregister_from_activity, activity_named. split.
  - destruct (first (select_where _ (activity s))) as [act|] eqn:Ea;
      [|simpl; discriminate].
    destruct (first (select_where _ (participant s))) as [p|] eqn:Ep;
      [|simpl; discriminate].
    intros _. exists act. split; [reflexivity|].
    apply listed_iff_registered. unfold registrations_of.
    destruct (select_where _ (participant s)); [discriminate Ep | discriminate].
  - intros (act & Ha & Hin). rewrite Ha.
    apply listed_iff_registered in Hin. unfold registrations_of in Hin.
    destruct (select_where _ (participant s)); [congruence | reflexivity].
Qed.

(** X6: for an existing activity and an email that is not listed for it,
    unregister answers 400 "Student is not signed up for this activity"
    and leaves the tables as they were, even when the email is listed
    for other activities. *)
Theorem unregister_not_signed_up (s : Store) (n e : string) (act : Activity.t) :
  activity_named s n = Some act ->
  ~ In e (participants_of s (Activity.id act)) ->
  unregister_from_activity s n e
  = (HTTPException 400 "Student is not signed up for this activity", s).
Proof.
  intros Ha Hnot. unfold unregister_from_activity.
  unfold activity_named in Ha. rewrite Ha.
  destruct (select_where _ (participant s)) as [|p l] eqn:E; [reflexivity|].
  exfalso. apply Hnot, listed_iff_registered. unfold registrations_of.
  rewrite E. discriminate.
Qed.

Lemma unregister_not_signed_up_witness :
  unregister_from_activity one_signed_up "Programming Class" "a@x.com"
  = (HTTPException 400 "Student is not signed up for this activity", one_signed_up).
Proof.
  apply (unregister_not_signed_up one_signed_up "Programming Class" "a@x.com"
           (Activity.mk 2 "Programming Class"
              (Some "Learn programming fundamentals and build software projects"%string)
              (Some "Tuesdays and Thursdays, 3:30 PM - 4:30 PM"%string) 20)).
  - reflexivity.
  - simpl. intros H. exact H.
Defined.

(** ** What unregister deletes *)

(** The first row of a selection splits the table around it. *)
Lemma first_select_split {A : Type} (cond : A -> bool) (table : list A) (r : A) :
  first (select_where cond table) = Some r ->
  exists before after,
    table = before ++ r :: after
    /\ (forall q, In q before -> cond q = false)
    /\ cond r = true.
Proof.
  unfold select_where. induction table as [|x l IH]; simpl; [discriminate|].
  destruct (cond x) eqn:Ex.
  - simpl. intros H. injection H as <-. exists [], l.
    split; [reflexivity|]. split; [intros q [] | exact Ex].
  - intros H. destruct (IH H) as (b & a & -> & Hb & Hr).
    exists (x :: b), a. split; [reflexivity|]. split; [|exact Hr].
    intros q [<- | Hq]; auto.
Qed.

Lemma same_key_same_participant (l : list Participant.t) (p q : Participant.t) :
  NoDup (map Participant.id l) -> In p l -> In q l ->
  Participant.id p = Participant.id q -> p = q.
Proof.
  induction l as [|x l IH]; simpl; [intros _ []|].
  intros Hnd Hp Hq Hid. inversion Hnd as [|? ? Hx Hl]; subst.
  destruct Hp as [-> | Hp], Hq as [-> | Hq].
  - reflexivity.
  - exfalso. apply Hx. rewrite Hid. apply in_map, Hq.
  - exfalso. apply Hx. rewrite <- Hid. apply in_map, Hp.
  - auto.
Qed.

(** With distinct keys, DELETE by key takes out that row and no other. *)
Lemma delete_at_key (before after : list Participant.t) (p : Participant.t) :
  NoDup (map Participant.id (before ++ p :: after)) ->
  delete_participant p (before ++ p :: after) = before ++ after.
Proof.
  intros Hnd. unfold delete_participant.
  rewrite filter_app. simpl. rewrite Z.eqb_refl. simpl. rewrite <- filter_app.
  apply forallb_filter_id, forallb_forall. intros q Hq.
  apply negb_true_iff, Z.eqb_neq. intros Hid.
  rewrite map_app in Hnd. simpl in Hnd. apply NoDup_remove_2 in Hnd.
  apply Hnd. rewrite <- Hid, <- map_app. apply in_map, Hq.
Qed.

(** Deleting a row keeps every row with another key. *)
Lemma delete_keeps_others (cond : Participant.t -> bool) (p : Participant.t)
    (table : list Participant.t) :
  NoDup (map Participant.id table) -> In p table -> cond p = false ->
  filter cond (delete_participant p table) = filter cond table.
Proof.
  intros Hnd Hp Hc. unfold delete_participant. rewrite filter_swap.
  apply forallb_filter_id, forallb_forall. intros q Hq.
  apply filter_In in Hq as [Hq Hcq].
  apply negb_true_iff, Z.eqb_neq. intros Hid.
  assert (q = p) by now apply (same_key_same_participant table).
  congruence.
Qed.

(** X7: with distinct Participant keys, a successful unregister deletes
    exactly one row, the first one in storage order that registers the
    email for the activity; every other row stays, in the same order. *)
Theorem unregister_deletes_first_match (s : Store) (n e : string) (act : Activity.t) :
  participant_keys_distinct s ->
  activity_named s n = Some act ->
  In e (participants_of s (Activity.id act)) ->
  exists before p after,
    participant s = before ++ p :: after
    /\ Participant.activity_id p = Activity.id act
    /\ Participant.email p = e
    /\ (forall q, In q before ->
                  ~ (Participant.activity_id q = Activity.id act
                     /\ Participant.email q = e))
    /\ snd (unregister_from_activity s n e) = mkStore (activity s) (before ++ after).
Proof.
  intros Hnd Ha Hin. unfold participant_keys_distinct in Hnd.
  apply listed_iff_registered in Hin. unfold registrations_of in Hin.
  unfold unregister_from_activity. unfold activity_named in Ha. rewrite Ha.
  destruct (first (select_where _ (participant s))) as [p|] eqn:Ep.
  - destruct (first_select_split _ _ _ Ep) as (b & a & Hl & Hb & Hp).
    apply andb_true_iff in Hp as [Hpa Hpe].
    exists b, p, a. split; [exact Hl|].
    split; [now apply Z.eqb_eq|]. split; [now apply String.eqb_eq|]. split.
    + intros q Hq [Hqa Hqe]. specialize (Hb q Hq).
      apply Z.eqb_eq in Hqa. apply String.eqb_eq in Hqe.
      rewrite Hqa, Hqe in Hb. discriminate.
    + simpl. rewrite Hl in *. now rewrite delete_at_key.
  - apply first_none in Ep. congruence.
Qed.

Lemma unregister_deletes_first_match_witness :
  exists before p after,
    participant signed_up_twice = before ++ p :: after
    /\ Participant.activity_id p = 1
    /\ Participant.email p = "a@x.com"%string
    /\ (forall q, In q before ->
                  ~ (Participant.activity_id q = 1
                     /\ Participant.email q = "a@x.com"%string))
    /\ snd (unregister_from_activity signed_up_twice "Chess Club" "a@x.com")
       = mkStore (activity signed_up_twice) (before ++ after).
Proof.
  apply (unregister_deletes_first_match signed_up_twice "Chess Club" "a@x.com"
           chess_club).
  - unfold participant_keys_distinct. simpl.
    repeat (constructor; [simpl; intuition discriminate|]). constructor.
  - reflexivity.
  - simpl. left. reflexivity.
Defined.

(** X8: with distinct Participant keys, unregister for one activity and
    email touches no other registration: the rows for any other
    (activity, email) pair, and the participant list of any other
    activity, are the same after the call, whether it succeeds or not. *)
Theorem unregister_keeps_other_registrations (s : Store) (n e : string)
    (act : Activity.t) :
  participant_keys_distinct s ->
  activity_named s n = Some act ->
  (forall aid' e', aid' <> Activity.id act \/ e' <> e ->
     registrations_of (snd (unregister_from_activity s n e)) aid' e'
     = registrations_of s aid' e')
  /\ (forall aid', aid' <> Activity.id act ->
        participants_of (snd (unregister_from_activity s n e)) aid'
        = participants_of s aid').
Proof.
  intros Hnd Ha. unfold participant_keys_distinct in Hnd.
  unfold unregister_from_activity. unfold activity_named in Ha. rewrite Ha.
  destruct (first (select_where _ (participant s))) as [p|] eqn:Ep;
    [|split; reflexivity].
  apply first_select_in in Ep as [Hp Hc]. apply andb_true_iff in Hc as [Hpa Hpe].
  apply Z.eqb_eq in Hpa. apply String.eqb_eq in Hpe.
  split.
  - intros aid' e' Hdiff. unfold registrations_of, select_where. simpl.
    apply delete_keeps_others; [assumption | assumption |].
    apply andb_false_iff. destruct Hdiff as [Hd | Hd].
    + left. apply Z.eqb_neq. congruence.
    + right. apply String.eqb_neq. congruence.
  - intros aid' Hd. unfold participants_of, all, select_where. simpl.
    f_equal. apply delete_keeps_others; [assumption | assumption |].
    apply Z.eqb_neq. congruence.
Qed.

Lemma unregister_keeps_other_registrations_witness :
  (forall aid' e', aid' <> 8 \/ e' <> "s@x.com"%string ->
     registrations_of
       (snd (unregister_from_activity math_club_full "Math Club" "s@x.com")) aid' e'
     = registrations_of math_club_full aid' e')
  /\ (forall aid', aid' <> 8 ->
        participants_of
          (snd (unregister_from_activity math_club_full "Math Club" "s@x.com")) aid'
        = participants_of math_club_full aid').
Proof.
  apply (unregister_keeps_other_registrations math_club_full "Math Club" "s@x.com"
           (Activity.mk 8 "Math Club"
              (Some "Solve challenging problems and participate in math competitions"%string)
              (Some "Tuesdays, 3:30 PM - 4:30 PM"%string) 10)).
  - unfold participant_keys_distinct. simpl.
    repeat (constructor; [simpl; intuition discriminate|]). constructor.
  - reflexivity.
Defined.

(** ** Signup and unregister in a row *)

Lemma unregister_no_row (s : Store) (n e : string) (act : Activity.t) :
  activity_named s n = Some act ->
  registrations_of s (Activity.id act) e = [] ->
  unregister_from_activity s n e
  = (HTTPException 400 "Student is not signed up for this activity", s).
Proof.
  unfold activity_named, registrations_of, unregister_from_activity.
  intros -> ->. reflexivity.
Qed.

Lemma unregister_added_row (s : Store) (n e : string) (act : Activity.t) :
  activity_named s n = Some act ->
  registrations_of s (Activity.id act) e = [] ->
  snd (unregister_from_activity
         (mkStore (activity s) (add_participant e (Activity.id act) (participant s)))
         n e) = s.
Proof.
  unfold activity_named, registrations_of, unregister_from_activity.
  intros Ha Hr. simpl. rewrite Ha.
  unfold select_where, add_participant in *. rewrite filter_app, Hr. simpl.
  rewrite Z.eqb_refl, String.eqb_refl. simpl.
  fold (add_participant e (Activity.id act) (participant s)).
  rewrite delete_added. destruct s; reflexivity.
Qed.

(** X10: for an email that is not listed for the activity the name
    resolves to (or when the name resolves to nothing), a signup request
    followed by an unregister request with the same name and email leaves
    both tables as they were, whether the signup was accepted or not. *)
Theorem signup_unregister_pair_neutral (result_count : list Participant.t -> option Z)
    (s : Store) (n e : string) :
  (forall act, activity_named s n = Some act ->
               ~ In e (participants_of s (Activity.id act))) ->
  run result_count s [Signup n e; Unregister n e] = s.
Proof.
  intros Hnot. unfold run. simpl.
  destruct (activity_named s n) as [act|] eqn:Ha.
  - assert (Hr : registrations_of s (Activity.id act) e = []).
    { destruct (registrations_of s (Activity.id act) e) eqn:E; [reflexivity|].
      exfalso. apply (Hnot act eq_refl), listed_iff_registered.
      rewrite E. discriminate. }
    rewrite (signup_after_checks _ _ _ _ _ Ha Hr).
    destruct (result_count _) as [k|]; simpl.
    + destruct (k >=? Activity.max_participants act); simpl.
      * now rewrite (unregister_no_row _ _ _ _ Ha Hr).
      * now apply unregister_added_row.
    + now rewrite (unregister_no_row _ _ _ _ Ha Hr).
  - unfold activity_named in Ha.
    unfold signup_for_activity, unregister_from_activity. rewrite Ha. simpl.
    rewrite Ha. reflexivity.
Qed.

Lemma signup_unregister_pair_neutral_witness :
  run rows_count one_signed_up
      [Signup "Programming Class" "a@x.com"; Unregister "Programming Class" "a@x.com"]
  = one_signed_up.
Proof.
  apply (signup_unregister_pair_neutral rows_count one_signed_up
           "Programming Class" "a@x.com").
  intros act H. vm_compute in H. injection H as <-. simpl. intros F. exact F.
Defined.

(** ** Invariants of the Participant table *)

Lemma run_invariant (P : Store -> Prop) (result_count : list Participant.t -> option Z) :
  (forall s r, P s -> P (handle result_count s r)) ->
  forall rs s, P s -> P (run result_count s rs).
Proof.
  intros Hstep. unfold run. induction rs as [|r rs IH]; intros s Hs; simpl; auto.
Qed.

Lemma NoDup_snoc {A : Type} (l : list A) (x : A) :
  NoDup l -> ~ In x l -> NoDup (l ++ [x]).
Proof.
  induction l as [|y l IH]; simpl; intros Hnd Hx.
  - constructor; [intros [] | constructor].
  - inversion Hnd as [|? ? Hy Hl]; subst. constructor.
    + intros Hin. apply in_app_or in Hin as [Hin | [-> | []]]; [auto|].
      apply Hx. now left.
    + apply IH; [assumption|]. intros Hin. apply Hx. now right.
Qed.

Lemma NoDup_map_filter {A B : Type} (g : A -> B) (f : A -> bool) (l : list A) :
  NoDup (map g l) -> NoDup (map g (filter f l)).
Proof.
  induction l as [|x l IH]; simpl; intros Hnd; [constructor|].
  inversion Hnd as [|? ? Hx Hl]; subst.
  destruct (f x); simpl; [|auto]. constructor; [|auto].
  intros Hin. apply Hx. apply in_map_iff in Hin as (y & Hy & Hin).
  apply in_map_iff. exists y. split; [assumption|].
  now apply filter_In in Hin as [Hin _].
Qed.

Lemma handle_keys_distinct (result_count : list Participant.t -> option Z)
    (s : Store) (r : request) :
  participant_keys_distinct s -> participant_keys_distinct (handle result_count s r).
Proof.
  unfold participant_keys_distinct. intros Hnd. destruct r as [|n e|n e]; simpl.
  - exact Hnd.
  - unfold signup_for_activity.
    destruct (first (select_where _ (activity s))) as [act|]; [|exact Hnd].
    destruct (first (select_where _ (participant s))); [exact Hnd|].
    destruct (result_count _) as [k|]; [|exact Hnd].
    destruct (k >=? Activity.max_participants act); [exact Hnd|].
    simpl. unfold add_participant. rewrite map_app. simpl.
    apply NoDup_snoc; [exact Hnd|]. intros Hin.
    apply next_id_fresh in Hin. lia.
  - unfold unregister_from_activity.
    destruct (first (select_where _ (activity s))) as [act|]; [|exact Hnd].
    destruct (first (select_where _ (participant s))) as [p|]; [|exact Hnd].
    simpl. now apply NoDup_map_filter.
Qed.

Lemma handle_foreign_keys (result_count : list Participant.t -> option Z)
    (s : Store) (r : request) :
  foreign_keys_ok s -> foreign_keys_ok (handle result_count s r).
Proof.
  unfold foreign_keys_ok. intros Hfk. destruct r as [|n e|n e]; simpl.
  - exact Hfk.
  - unfold signup_for_activity.
    destruct (first (select_where _ (activity s))) as [act|] eqn:Ea; [|exact Hfk].
    destruct (first (select_where _ (participant s))); [exact Hfk|].
    destruct (result_count _) as [k|]; [|exact Hfk].
    destruct (k >=? Activity.max_participants act); [exact Hfk|].
    simpl. intros p Hp. unfold add_participant in Hp.
    apply in_app_or in Hp as [Hp | [<- | []]]; [auto|].
    exists act. split; [|reflexivity]. now apply first_select_in in Ea as [Ha _].
  - unfold unregister_from_activity.
    destruct (first (select_where _ (activity s))) as [act|]; [|exact Hfk].
    destruct (first (select_where _ (participant s))) as [p|]; [|exact Hfk].
    simpl. intros q Hq. unfold delete_participant in Hq.
    apply filter_In in Hq as [Hq _]. auto.
Qed.

Lemma filter_shorter {A : Type} (f : A -> bool) (l : list A) :
  (List.length (filter f l) <= List.length l)%nat.
Proof.
  induction l as [|x l IH]; simpl; [lia|]. destruct (f x); simpl; lia.
Qed.

Lemma handle_at_most_once (result_count : list Participant.t -> option Z)
    (s : Store) (r : request) :
  registered_at_most_once s -> registered_at_most_once (handle result_count s r).
Proof.
  unfold registered_at_most_once. intros Hone. destruct r as [|n e|n e]; simpl.
  - exact Hone.
  - unfold signup_for_activity.
    destruct (first (select_where _ (activity s))) as [act|]; [|exact Hone].
    destruct (first (select_where _ (participant s))) eqn:Er; [exact Hone|].
    destruct (result_count _) as [k|]; [|exact Hone].
    destruct (k >=? Activity.max_participants act); [exact Hone|].
    apply first_none in Er. intros aid e'. specialize (Hone aid e').
    unfold registrations_of, select_where, add_participant in *. simpl.
    rewrite filter_app, length_app. simpl.
    destruct (Z.eqb_spec (Activity.id act) aid) as [<- | _]; simpl.
    + destruct (String.eqb_spec e e') as [<- | _]; simpl; [|lia].
      rewrite Er. simpl. lia.
    + lia.
  - unfold unregister_from_activity.
    destruct (first (select_where _ (activity s))) as [act|]; [|exact Hone].
    destruct (first (select_where _ (participant s))) as [p|]; [|exact Hone].
    intros aid e'. specialize (Hone aid e'). cbn [snd].
    rewrite registrations_after_delete.
    pose proof (filter_shorter
                  (fun q => negb (Participant.id q =? Participant.id p))
                  (registrations_of s aid e')).
    lia.
Qed.

(** X11: the handlers keep the keys of the Participant table distinct:
    a signup takes a key that is not in use, so after any sequence of
    requests on tables with distinct keys the keys are still distinct. *)
Theorem participant_keys_stay_distinct (result_count : list Participant.t -> option Z)
    (s : Store) (rs : list request) :
  participant_keys_distinct s ->
  participant_keys_distinct (run result_count s rs).
Proof.
  apply run_invariant. intros s0 r. apply handle_keys_distinct.
Qed.

Lemma participant_keys_stay_distinct_witness :
  participant_keys_distinct
    (run rows_count signed_up_twice
         [Unregister "Chess Club" "a@x.com"; Signup "Math Club" "c@x.com";
          Signup "Chess Club" "d@x.com"]).
Proof.
  apply (participant_keys_stay_distinct rows_count signed_up_twice).
  unfold participant_keys_distinct. simpl.
  repeat (constructor; [simpl; intuition discriminate|]). constructor.
Defined.

(** X12: the handlers respect the foreign key: a signup only writes the
    key of an Activity row that exists and no handler deletes an
    activity, so after any sequence of requests on tables in which every
    Participant row refers to an Activity row, every row still does. *)
Theorem foreign_keys_stay_ok (result_count : list Participant.t -> option Z)
    (s : Store) (rs : list request) :
  foreign_keys_ok s -> foreign_keys_ok (run result_count s rs).
Proof.
  apply run_invariant. intros s0 r. apply handle_foreign_keys.
Qed.

Lemma foreign_keys_stay_ok_witness :
  foreign_keys_ok
    (run rows_count one_signed_up
         [Signup "Math Club" "c@x.com"; Unregister "Chess Club" "a@x.com"]).
Proof.
  apply (foreign_keys_stay_ok rows_count one_signed_up).
  intros p Hp. simpl in Hp. destruct Hp as [<- | []].
  exists chess_club. split; [left; reflexivity | reflexivity].
Defined.

(** X13: the duplicate check of signup keeps registrations unique: on
    tables in which no email has two rows for one activity, no sequence
    of requests produces such a pair of rows. *)
Theorem registered_at_most_once_kept (result_count : list Participant.t -> option Z)
    (s : Store) (rs : list request) :
  registered_at_most_once s -> registered_at_most_once (run result_count s rs).
Proof.
  apply run_invariant. intros s0 r. apply handle_at_most_once.
Qed.

Lemma registered_at_most_once_kept_witness :
  registered_at_most_once
    (run rows_count one_signed_up
         [Signup "Chess Club" "a@x.com"; Signup "Chess Club" "b@x.com";
          Signup "Math Club" "a@x.com"]).
Proof.
  apply (registered_at_most_once_kept rows_count one_signed_up).
  intros aid e. unfold registrations_of, select_where, one_signed_up.
  cbn [participant filter Participant.activity_id Participant.email].
  destruct ((1 =? aid) && String.eqb "a@x.com" e); simpl; lia.
Defined.

(** ** The listing *)

(** X14: [get_activities] answers 200, changes nothing and returns one
    entry per Activity row, in table order, carrying the row's name,
    description, schedule and capacity; an email is shown under an
    activity called [nm] exactly when some Participant row holds that
    email and the key of an Activity row called [nm]. *)
Theorem get_activities_lists_registrations (s : Store) :
  exists body,
    get_activities s = (OK body, s)
    /\ map (fun o => (out_name o, out_description o, out_schedule o,
                      out_max_participants o)) body
       = map fields (activity s)
    /\ forall nm e,
         (exists o, In o body /\ out_name o = nm /\ In e (out_participants o))
         <-> (exists a p, In a (activity s) /\ Activity.name a = nm
                          /\ In p (participant s)
                          /\ Participant.activity_id p = Activity.id a
                          /\ Participant.email p = e).
Proof.
  eexists. split; [reflexivity|]. split.
  - unfold all. rewrite map_map. reflexivity.
  - intros nm e. unfold all. split.
    + intros (o & Ho & Hn & He). apply in_map_iff in Ho as (a & <- & Ha).
      simpl in Hn, He. unfold participants_of, all, select_where in He.
      apply in_map_iff in He as (p & Hpe & Hp). apply filter_In in Hp as [Hp Hpa].
      exists a, p. repeat split; try assumption. now apply Z.eqb_eq.
    + intros (a & p & Ha & Hn & Hp & Hpa & Hpe).
      eexists. split; [apply in_map_iff; exists a; split; [reflexivity | exact Ha]|].
      simpl. split; [exact Hn|].
      unfold participants_of, all, select_where. apply in_map_iff.
      exists p. split; [exact Hpe|]. apply filter_In. split; [exact Hp|].
      now apply Z.eqb_eq.
Qed.

Lemma one_hit (acts : list Activity.t) (k : Z) :
  NoDup (map Activity.id acts) ->
  (exists a, In a acts /\ Activity.id a = k) ->
  list_sum (map (fun a => if k =? Activity.id a then 1%nat else 0%nat) acts) = 1%nat.
Proof.
  induction acts as [|x acts IH]; simpl; intros Hnd (a & Ha & Hk); [destruct Ha|].
  inversion Hnd as [|? ? Hx Hl]; subst.
  destruct (Z.eqb_spec (Activity.id a) (Activity.id x)) as [Heq | Hne].
  - f_equal. clear IH Ha Hl Hnd. rewrite Heq.
    induction acts as [|y acts IH]; simpl; [reflexivity|].
    destruct (Z.eqb_spec (Activity.id x) (Activity.id y)) as [Hxy | _].
    + exfalso. apply Hx. left. congruence.
    + apply IH. intros Hin. apply Hx. now right.
  - destruct Ha as [-> | Ha]; [congruence|]. simpl. apply IH; [assumption|].
    exists a. auto.
Qed.

Lemma listed_cons (acts : list Activity.t) (p : Participant.t)
    (l : list Participant.t) :
  list_sum (map (fun a => List.length
                            (filter (fun q => Participant.activity_id q =? Activity.id a)
                                    (p :: l))) acts)
  = Nat.add
      (list_sum (map (fun a => if Participant.activity_id p =? Activity.id a
                               then 1%nat else 0%nat) acts))
      (list_sum (map (fun a => List.length
                                 (filter (fun q => Participant.activity_id q
                                                   =? Activity.id a) l)) acts)).
Proof.
  induction acts as [|a acts IH]; simpl; [reflexivity|].
  simpl in IH. rewrite IH.
  destruct (Participant.activity_id p =? Activity.id a); simpl; lia.
Qed.

(** X15: on tables with distinct Activity keys and a respected foreign
    key, the listing shows every registration exactly once: the lengths
    of the participant lists of [get_activities] add up to the number of
    Participant rows. *)
Theorem get_activities_shows_every_row_once (s : Store) :
  activity_keys_distinct s ->
  foreign_keys_ok s ->
  exists body,
    fst (get_activities s) = OK body
    /\ list_sum (map (fun o => List.length (out_participants o)) body)
       = List.length (participant s).
Proof.
  intros Hnd Hfk. eexists. split; [reflexivity|].
  unfold all, participants_of, all, select_where. rewrite map_map. simpl.
  unfold activity_keys_distinct in Hnd. unfold foreign_keys_ok in Hfk.
  destruct s as [acts parts]. simpl in *.
  induction parts as [|p l IH].
  - simpl. clear Hnd Hfk.
    induction acts as [|a acts IHa]; simpl; [reflexivity | exact IHa].
  - transitivity
      (list_sum (map (fun a => List.length
                                 (filter (fun q => Participant.activity_id q
                                                   =? Activity.id a) (p :: l)))
                     acts)).
    { f_equal. apply map_ext. intros a. apply length_map. }
    rewrite listed_cons, one_hit.
    + simpl. f_equal. rewrite <- IH.
      * f_equal. apply map_ext. intros a. symmetry. apply length_map.
      * intros q Hq. apply Hfk. now right.
    + exact Hnd.
    + destruct (Hfk p (or_introl eq_refl)) as (a & Ha & Hid). eauto.
Qed.

Lemma get_activities_shows_every_row_once_witness :
  exists body,
    fst (get_activities math_club_full) = OK body
    /\ list_sum (map (fun o => List.length (out_participants o)) body)
       = List.length (participant math_club_full).
Proof.
  apply (get_activities_shows_every_row_once math_club_full).
  - unfold activity_keys_distinct. simpl.
    repeat (constructor; [simpl; intuition discriminate|]). constructor.
  - intros p Hp. simpl in Hp.
    exists (Activity.mk 8 "Math Club"
              (Some "Solve challenging problems and participate in math competitions"%string)
              (Some "Tuesdays, 3:30 PM - 4:30 PM"%string) 10).
    split; [simpl; tauto|].
    repeat (destruct Hp as [<- | Hp]; [reflexivity|]). destruct Hp.
Defined.

(** ** The Participant table under the handlers as written *)

(** X16: with the [.count()] call of [signup_for_activity] as it is, no
    sequence of requests creates a Participant row: every row present
    afterwards was present before, and from the freshly seeded tables
    the Participant table stays empty. *)
Theorem no_row_is_ever_created (s : Store) (rs : list request) :
  incl (participant (run ScalarResult_count s rs)) (participant s)
  /\ participant (run ScalarResult_count seeded rs) = [].
Proof.
  assert (H : forall t, incl (participant (run ScalarResult_count t rs)) (participant t)).
  { unfold run. induction rs as [|r rs IH]; intros t; simpl; [apply incl_refl|].
    eapply incl_tran; [apply IH|].
    destruct r as [|n e|n e]; simpl.
    - apply incl_refl.
    - rewrite (proj1 (signup_never_succeeds t n e)). apply incl_refl.
    - unfold unregister_from_activity.
      destruct (first (select_where _ (activity t))); [|apply incl_refl].
      destruct (first (select_where _ (participant t))); [|apply incl_refl].
      simpl. apply incl_filter. }
  split; [apply H|]. apply incl_l_nil. apply (H seeded).
Qed.
